(** * DataTypeInfoProvider: the data type introspection services of libuavcan

    A shallow embedding of
    [uavcan/protocol/data_type_info_provider.hpp]: the two request handlers
    ([handleComputeAggregateTypeSignatureRequest],
    [handleGetDataTypeInfoRequest]) and [start()].

    Conventions.
    - Fixed-width unsigned integers are [Z]; the one narrowing cast of the
      file ([static_cast<uint16_t>]) is written out as [to_uint16].
    - A handler receives its response by mutable reference; here it takes
      the response it is handed and returns the response it leaves behind.
    - [UAVCAN_TRACE] only logs and is dropped.
    - [UAVCAN_ASSERT] is recorded in a flag next to the result ([Run]). *)

From Stdlib Require Import ZArith List Bool String Lia Permutation.
Import ListNotations.
Local Open Scope Z_scope.

(** ** Data model *)

(** [static_cast<uint16_t>(v)] for a non-negative [v]. *)
Definition to_uint16 (v : Z) : Z := v mod 2 ^ 16.

(** [DataTypeDescriptor], as far as the handlers read it: [getKind()],
    [getID().get()], [getSignature().get()] and [getFullName()]. *)
Record DataTypeDescriptor : Type := mkDescriptor {
  getKind : Z;
  getID : Z;
  getSignature : Z;
  getFullName : string
}.

(** The part of [GlobalDataTypeRegistry] the handlers call.  The class is
    declared outside this file; the handlers are embedded against this
    interface. *)
Record GlobalDataTypeRegistry : Type := mkRegistry {
  find_by_id : Z -> Z -> option DataTypeDescriptor;
  find_by_name : string -> option DataTypeDescriptor;
  computeAggregateSignature : Z -> list bool -> Z
}.

(** The part of [Dispatcher] the handlers call. *)
Record Dispatcher : Type := mkDispatcher {
  hasServer : Z -> bool;
  hasSubscriber : Z -> bool;
  hasPublisher : Z -> bool
}.

(** [protocol::ComputeAggregateTypeSignature]: [kind] is [request.kind.value]
    (uint8), the masks are dynamic bit arrays. *)
Module CATS.
Record Request : Type := mkRequest {
  kind : Z;
  known_ids : list bool
}.

Record Response : Type := mkResponse {
  aggregate_signature : Z;
  mutually_known_ids : list bool
}.

(** The response as the service server hands it over: default-constructed. *)
Definition zero : Response := mkResponse 0 [].

Definition set_aggregate_signature (v : Z) (r : Response) : Response :=
  mkResponse v (mutually_known_ids r).
Definition set_mutually_known_ids (v : list bool) (r : Response) : Response :=
  mkResponse (aggregate_signature r) v.
End CATS.

(** [protocol::GetDataTypeInfo]. *)
Module GDTI.
Record Request : Type := mkRequest {
  id : Z;
  kind : Z;
  name : string
}.

Record Response : Type := mkResponse {
  signature : Z;
  rid : Z;
  rkind : Z;
  mask : Z;
  rname : string
}.

Definition zero : Response := mkResponse 0 0 0 0 EmptyString.

Definition set_id (v : Z) (r : Response) : Response :=
  mkResponse (signature r) v (rkind r) (mask r) (rname r).
Definition set_kind (v : Z) (r : Response) : Response :=
  mkResponse (signature r) (rid r) v (mask r) (rname r).
Definition set_name (v : string) (r : Response) : Response :=
  mkResponse (signature r) (rid r) (rkind r) (mask r) v.
Definition set_signature (v : Z) (r : Response) : Response :=
  mkResponse v (rid r) (rkind r) (mask r) (rname r).
Definition set_mask (v : Z) (r : Response) : Response :=
  mkResponse (signature r) (rid r) (rkind r) v (rname r).
End GDTI.

(** The outcome of a function that contains [UAVCAN_ASSERT]s: the state it
    leaves when assertions are compiled out, and whether every assertion it
    executed held.  A build with assertions enabled aborts where
    [asserts_hold] is [false]. *)
Record Run (A : Type) : Type := mkRun {
  result : A;
  asserts_hold : bool
}.
Arguments mkRun {A} _ _.
Arguments result {A} _.
Arguments asserts_hold {A} _.

(** Modelled from the spec: [Array::resize(n)] on a bit array; the container
    class is declared outside this file.  Section 4.1, step 2: positions
    beyond the supplied length are unset (zero-extension), positions beyond
    the new length are discarded.  The static capacity of the container is
    not modelled. *)
Definition resize (n : nat) (l : list bool) : list bool :=
  firstn n l ++ repeat false (n - List.length l).

(** Constants and the id-range function that the handlers use and that are
    declared outside this file: the two enumerators of [DataTypeKind],
    [DataTypeID::getMaxValueForDataTypeKind(kind).get()], and the flags of
    [protocol::GetDataTypeInfo::Response]. *)
Record Declarations : Type := mkDeclarations {
  DataTypeKindService : Z;
  DataTypeKindMessage : Z;
  getMaxValueForDataTypeKind : Z -> Z;
  MASK_KNOWN : Z;
  MASK_SUBSCRIBED : Z;
  MASK_PUBLISHING : Z;
  MASK_SERVING : Z
}.

(** ** The handlers *)

Section Provider.

Variable c : Declarations.

Definition isValidDataTypeKind (kind : Z) : bool :=
  (kind =? DataTypeKindMessage c) || (kind =? DataTypeKindService c).

(** The argument of [resize]:
    [static_cast<uint16_t>(getMaxValueForDataTypeKind(kind).get() + 1U)]. *)
Definition mask_length (kind : Z) : nat :=
  Z.to_nat (to_uint16 (getMaxValueForDataTypeKind c kind + 1)).

Definition handleComputeAggregateTypeSignatureRequest
    (registry : GlobalDataTypeRegistry)
    (request : CATS.Request) (response : CATS.Response) : CATS.Response :=
  let kind := CATS.kind request in
  if negb (isValidDataTypeKind kind) then response
  else
    let response :=
      CATS.set_mutually_known_ids (CATS.known_ids request) response in
    let response :=
      CATS.set_mutually_known_ids
        (resize (mask_length kind) (CATS.mutually_known_ids response))
        response in
    CATS.set_aggregate_signature
      (computeAggregateSignature registry kind
         (CATS.mutually_known_ids response))
      response.

(** The second half of [handleGetDataTypeInfoRequest], from the test
    [desc == NULL] on; [desc] is what the lookup produced. *)
Definition fillResponse (dispatcher : Dispatcher)
    (desc : option DataTypeDescriptor) (response : GDTI.Response)
    : Run GDTI.Response :=
  match desc with
  | None => mkRun response true
  | Some desc =>
      let response := GDTI.set_signature (getSignature desc) response in
      let response := GDTI.set_id (getID desc) response in
      let response := GDTI.set_kind (getKind desc) response in
      let response := GDTI.set_mask (MASK_KNOWN c) response in
      let response := GDTI.set_name (getFullName desc) response in
      if getKind desc =? DataTypeKindService c then
        let response :=
          if hasServer dispatcher (getID desc)
          then GDTI.set_mask (Z.lor (GDTI.mask response) (MASK_SERVING c))
                             response
          else response in
        mkRun response true
      else if getKind desc =? DataTypeKindMessage c then
        let response :=
          if hasSubscriber dispatcher (getID desc)
          then GDTI.set_mask (Z.lor (GDTI.mask response) (MASK_SUBSCRIBED c))
                             response
          else response in
        let response :=
          if hasPublisher dispatcher (getID desc)
          then GDTI.set_mask (Z.lor (GDTI.mask response) (MASK_PUBLISHING c))
                             response
          else response in
        mkRun response true
      else
        (* UAVCAN_ASSERT(0) *)
        mkRun response false
  end.

Definition handleGetDataTypeInfoRequest
    (registry : GlobalDataTypeRegistry) (dispatcher : Dispatcher)
    (request : GDTI.Request) (response : GDTI.Response) : Run GDTI.Response :=
  if String.eqb (GDTI.name request) EmptyString then
    let response := GDTI.set_id (GDTI.id request) response in
    let response := GDTI.set_kind (GDTI.kind request) response in
    if negb (isValidDataTypeKind (GDTI.kind request)) then
      mkRun response true
    else
      fillResponse dispatcher
        (find_by_id registry (GDTI.kind request) (GDTI.id request)) response
  else
    let response := GDTI.set_name (GDTI.name request) response in
    fillResponse dispatcher
      (find_by_name registry (GDTI.name request)) response.

End Provider.

(** ** start() *)

(** A [ServiceServer], as far as [start()] is concerned: whether its handler
    is registered with the dispatch mechanism. *)
Record ServiceServer : Type := mkServer {
  registered : bool
}.

(** Modelled from the spec: [ServiceServer::stop()]; the class is declared
    outside this file.  Section 6: [unregisterHandler]. *)
Definition stop (s : ServiceServer) : ServiceServer := mkServer false.

Record DataTypeInfoProvider : Type := mkProvider {
  cats_srv_ : ServiceServer;
  gdti_srv_ : ServiceServer
}.

Section Start.

(** [ServiceServer::start(callback)] of the two servers: the result code and
    the server it leaves.  Whether a registration succeeds is decided by the
    dispatch mechanism, outside this file, so both are left open. *)
Variables cats_start gdti_start : ServiceServer -> Z * ServiceServer.

(** The block after the label [fail]. *)
Definition start_fail (res : Z) (p : DataTypeInfoProvider)
    : Run (Z * DataTypeInfoProvider) :=
  let holds := res <? 0 in                       (* UAVCAN_ASSERT(res < 0) *)
  let p := mkProvider (stop (cats_srv_ p)) (gdti_srv_ p) in
  let p := mkProvider (cats_srv_ p) (stop (gdti_srv_ p)) in
  mkRun (res, p) holds.

Definition start (p : DataTypeInfoProvider) : Run (Z * DataTypeInfoProvider) :=
  let '(res, srv) := cats_start (cats_srv_ p) in
  let p := mkProvider srv (gdti_srv_ p) in
  if res <? 0 then start_fail res p
  else
    let '(res, srv) := gdti_start (gdti_srv_ p) in
    let p := mkProvider (cats_srv_ p) srv in
    if res <? 0 then start_fail res p
    else mkRun (res, p) (0 <=? res).             (* UAVCAN_ASSERT(res >= 0) *)

End Start.

(** ** The registry *)

Module Registry.
Section Mixing.

(** The mixing function of signatures and the signature of no type at all. *)
Variable mix : Z -> Z -> Z.
Variable empty_signature : Z.

(** Modelled from the spec: [GlobalDataTypeRegistry::find(kind, id)] is
    declared outside this file.  Section 3: the registry is a set of
    descriptors addressable by (kind, numeric id); an unknown (kind, id) is
    not found. *)
Definition find (descs : list DataTypeDescriptor) (kind id : Z)
    : option DataTypeDescriptor :=
  List.find (fun d => (getKind d =? kind) && (getID d =? id)) descs.

(** Modelled from the spec: [GlobalDataTypeRegistry::find(name)] is declared
    outside this file.  Section 3: descriptors are addressable by full name;
    an unknown name is not found. *)
Definition find_name (descs : list DataTypeDescriptor) (name : string)
    : option DataTypeDescriptor :=
  List.find (fun d => String.eqb (getFullName d) name) descs.

(** The combination of a list of signatures. *)
Definition combine (sigs : list Z) : Z := fold_left mix sigs empty_signature.

(** Modelled from the spec: [GlobalDataTypeRegistry::computeAggregateSignature]
    is declared outside this file.  Section 4.1, step 3: for every id of the
    normalized id space (the positions of the mask) the registry is asked
    whether a descriptor for (kind, id) exists; the signatures of those that
    exist are combined.  The bits of the mask are not read. *)
Definition computeAggregateSignature (descs : list DataTypeDescriptor)
    (kind : Z) (mask : list bool) : Z :=
  fold_left
    (fun acc i =>
       match find descs kind (Z.of_nat i) with
       | Some d => mix acc (getSignature d)
       | None => acc
       end)
    (seq 0 (List.length mask)) empty_signature.

Definition instance (descs : list DataTypeDescriptor)
    : GlobalDataTypeRegistry :=
  mkRegistry (find descs) (find_name descs) (computeAggregateSignature descs).

End Mixing.
End Registry.

(** ** Predicates and auxiliary functions of the statements *)

(** Every bit of [flag] is set in [mask]. *)
Definition flag_set (mask flag : Z) : bool := Z.land mask flag =? flag.

(** What the declarations outside this file are expected to provide: two
    different kind enumerators and four flags without common bits, the three
    usage flags not zero. *)
Definition declarations_ok (c : Declarations) : bool :=
  negb (DataTypeKindService c =? DataTypeKindMessage c) &&
  (Z.land (MASK_KNOWN c) (MASK_SUBSCRIBED c) =? 0) &&
  (Z.land (MASK_KNOWN c) (MASK_PUBLISHING c) =? 0) &&
  (Z.land (MASK_KNOWN c) (MASK_SERVING c) =? 0) &&
  (Z.land (MASK_SUBSCRIBED c) (MASK_PUBLISHING c) =? 0) &&
  (Z.land (MASK_SUBSCRIBED c) (MASK_SERVING c) =? 0) &&
  (Z.land (MASK_PUBLISHING c) (MASK_SERVING c) =? 0) &&
  negb (MASK_SUBSCRIBED c =? 0) &&
  negb (MASK_PUBLISHING c =? 0) &&
  negb (MASK_SERVING c =? 0).

(** The descriptor [handleGetDataTypeInfoRequest] finds for a request, if
    any: by (kind, id) when the name is empty and the kind valid, by name
    when the name is not empty. *)
Definition found_descriptor (c : Declarations)
    (registry : GlobalDataTypeRegistry) (request : GDTI.Request)
    : option DataTypeDescriptor :=
  if String.eqb (GDTI.name request) EmptyString then
    if isValidDataTypeKind c (GDTI.kind request)
    then find_by_id registry (GDTI.kind request) (GDTI.id request)
    else None
  else find_by_name registry (GDTI.name request).

(** Every descriptor the registry hands out has kind Message or Service. *)
Definition registry_kinds_valid (c : Declarations)
    (registry : GlobalDataTypeRegistry) : Prop :=
  (forall kind id desc,
      find_by_id registry kind id = Some desc ->
      isValidDataTypeKind c (getKind desc) = true) /\
  (forall name desc,
      find_by_name registry name = Some desc ->
      isValidDataTypeKind c (getKind desc) = true).

(** What a successful [ServiceServer::start] is taken to mean: a
    non-negative result code leaves the handler registered. *)
Definition registers_on_success
    (srv_start : ServiceServer -> Z * ServiceServer) : Prop :=
  forall s, 0 <= fst (srv_start s) -> registered (snd (srv_start s)) = true.

(** The descriptors of a kind, in the order of the registry. *)
Definition descriptors_of_kind (descs : list DataTypeDescriptor) (kind : Z)
    : list DataTypeDescriptor :=
  filter (fun d => getKind d =? kind) descs.






(** What [handleGetDataTypeInfoRequest] writes before it looks anything up:
    id and kind of the request when the name is empty, the name otherwise. *)
Definition prefill (request : GDTI.Request) (response : GDTI.Response)
    : GDTI.Response :=
  if String.eqb (GDTI.name request) EmptyString then
    GDTI.set_kind (GDTI.kind request)
      (GDTI.set_id (GDTI.id request) response)
  else GDTI.set_name (GDTI.name request) response.

(** All four status flags together. *)
Definition all_flags (c : Declarations) : Z :=
  Z.lor (Z.lor (Z.lor (MASK_KNOWN c) (MASK_SUBSCRIBED c)) (MASK_PUBLISHING c))
        (MASK_SERVING c).

(** Two dispatchers give the same three answers for one id. *)
Definition dispatchers_agree_at (d1 d2 : Dispatcher) (id : Z) : Prop :=
  hasServer d1 id = hasServer d2 id /\
  hasSubscriber d1 id = hasSubscriber d2 id /\
  hasPublisher d1 id = hasPublisher d2 id.

(** ** Concrete data used to exercise the theorems *)

Module Sample.

(** Service = 0, Message = 1; service ids up to 511, message ids up to 2047;
    one flag per bit. *)
Definition decls : Declarations :=
  mkDeclarations 0 1 (fun kind => if kind =? 1 then 2047 else 511) 1 2 4 8.

Definition foo_Bar : DataTypeDescriptor :=
  mkDescriptor 1 20 0xAABBCCDD11223344 "foo.Bar".
Definition foo_Get : DataTypeDescriptor :=
  mkDescriptor 0 5 0x0123456789ABCDEF "foo.Get".
Definition foo_Baz : DataTypeDescriptor :=
  mkDescriptor 1 7 0x1111222233334444 "foo.Baz".

Definition descs : list DataTypeDescriptor := [foo_Baz; foo_Get; foo_Bar].

Definition registry : GlobalDataTypeRegistry :=
  Registry.instance Z.lxor 0 descs.

(** A server for id 5, a subscriber and a publisher for id 20, a
    publisher for id 7. *)
Definition dispatcher : Dispatcher :=
  mkDispatcher (fun id => id =? 5) (fun id => id =? 20)
               (fun id => (id =? 20) || (id =? 7)).

(** A registry that holds a descriptor of kind 9. *)
Definition odd_registry : GlobalDataTypeRegistry :=
  Registry.instance Z.lxor 0 [mkDescriptor 9 3 0x55 "odd.Type"].

(** The largest id of kind Message is 65535, the example of the
    specification. *)
Definition wide_decls : Declarations :=
  mkDeclarations 0 1 (fun kind => if kind =? 1 then 65535 else 255) 1 2 4 8.

(** Answers like [dispatcher] for id 20 and differently for every other
    id. *)
Definition other_dispatcher : Dispatcher :=
  mkDispatcher (fun id => negb (id =? 20)) (fun id => true)
               (fun id => true).

(** A registry without any descriptor. *)
Definition empty_registry : GlobalDataTypeRegistry :=
  Registry.instance Z.lxor 0 [].

End Sample.

(** ** Invalid kinds and failed lookups *)

Lemma name_empty_eqb (s : string) :
  s = EmptyString -> String.eqb s EmptyString = true.
Proof. intros ->. reflexivity. Qed.

Lemma name_nonempty_eqb (s : string) :
  s <> EmptyString -> String.eqb s EmptyString = false.
Proof. intros H. apply String.eqb_neq. exact H. Qed.

(** C5.  A ComputeAggregateTypeSignature request whose kind is neither
    Message nor Service leaves the response exactly as it was handed over;
    handed over pre-zeroed, both the mask and the aggregate signature are
    still at their defaults.  The handler has no other output. *)
Theorem cats_invalid_kind_writes_nothing :
  forall c registry request,
    isValidDataTypeKind c (CATS.kind request) = false ->
    (forall response,
        handleComputeAggregateTypeSignatureRequest c registry request response
        = response) /\
    CATS.mutually_known_ids
      (handleComputeAggregateTypeSignatureRequest c registry request CATS.zero)
    = [] /\
    CATS.aggregate_signature
      (handleComputeAggregateTypeSignatureRequest c registry request CATS.zero)
    = 0.
Proof.
  intros c registry request Hinv.
  assert (Hframe : forall response,
    handleComputeAggregateTypeSignatureRequest c registry request response
    = response).
  { intros response. unfold handleComputeAggregateTypeSignatureRequest.
    rewrite Hinv. reflexivity. }
  split; [exact Hframe|]. rewrite Hframe. split; reflexivity.
Qed.

Lemma cats_invalid_kind_writes_nothing_witness :
  isValidDataTypeKind Sample.decls 7 = false /\
  handleComputeAggregateTypeSignatureRequest Sample.decls Sample.registry
    (CATS.mkRequest 7 [true; true]) CATS.zero = CATS.zero.
Proof.
  split; [reflexivity|].
  apply (cats_invalid_kind_writes_nothing Sample.decls Sample.registry
           (CATS.mkRequest 7 [true; true])).
  reflexivity.
Defined.

(** C4.  An id-based GetDataTypeInfo query (empty name) whose kind is
    invalid, or for whose (kind, id) the registry has no descriptor, changes
    the response in its id and kind fields only, which become the query's;
    signature, status mask and name stay as handed over, that is zero and
    empty for a pre-zeroed response.  No assertion is involved. *)
Theorem gdti_id_query_failure_echoes_id_and_kind :
  forall c registry dispatcher request,
    GDTI.name request = EmptyString ->
    isValidDataTypeKind c (GDTI.kind request) = false \/
    find_by_id registry (GDTI.kind request) (GDTI.id request) = None ->
    (forall response,
        handleGetDataTypeInfoRequest c registry dispatcher request response
        = mkRun (GDTI.mkResponse (GDTI.signature response) (GDTI.id request)
                   (GDTI.kind request) (GDTI.mask response)
                   (GDTI.rname response)) true) /\
    result (handleGetDataTypeInfoRequest c registry dispatcher request
              GDTI.zero)
    = GDTI.mkResponse 0 (GDTI.id request) (GDTI.kind request) 0 EmptyString.
Proof.
  intros c registry dispatcher request Hname Hfail.
  assert (Hframe : forall response,
    handleGetDataTypeInfoRequest c registry dispatcher request response
    = mkRun (GDTI.mkResponse (GDTI.signature response) (GDTI.id request)
               (GDTI.kind request) (GDTI.mask response)
               (GDTI.rname response)) true).
  { intros response. unfold handleGetDataTypeInfoRequest.
    rewrite (name_empty_eqb _ Hname).
    destruct (isValidDataTypeKind c (GDTI.kind request)) eqn:Hvalid; cbn.
    - destruct Hfail as [Hinv | Hnone]; [discriminate|].
      rewrite Hnone. reflexivity.
    - reflexivity. }
  split; [exact Hframe|]. rewrite Hframe. reflexivity.
Qed.

Lemma gdti_id_query_failure_echoes_id_and_kind_witness :
  result (handleGetDataTypeInfoRequest Sample.decls Sample.registry
            Sample.dispatcher (GDTI.mkRequest 9999 0 EmptyString) GDTI.zero)
  = GDTI.mkResponse 0 9999 0 0 EmptyString.
Proof.
  apply (gdti_id_query_failure_echoes_id_and_kind Sample.decls Sample.registry
           Sample.dispatcher (GDTI.mkRequest 9999 0 EmptyString)).
  - reflexivity.
  - right. reflexivity.
Defined.

(** C6.  A name-based GetDataTypeInfo query (non-empty name) whose name the
    registry does not know changes the response in its name field only,
    which becomes the query's; id, kind, signature and status mask stay as
    handed over, that is zero for a pre-zeroed response. *)
Theorem gdti_name_query_failure_echoes_name :
  forall c registry dispatcher request,
    GDTI.name request <> EmptyString ->
    find_by_name registry (GDTI.name request) = None ->
    (forall response,
        handleGetDataTypeInfoRequest c registry dispatcher request response
        = mkRun (GDTI.mkResponse (GDTI.signature response) (GDTI.rid response)
                   (GDTI.rkind response) (GDTI.mask response)
                   (GDTI.name request)) true) /\
    result (handleGetDataTypeInfoRequest c registry dispatcher request
              GDTI.zero)
    = GDTI.mkResponse 0 0 0 0 (GDTI.name request).
Proof.
  intros c registry dispatcher request Hname Hnone.
  assert (Hframe : forall response,
    handleGetDataTypeInfoRequest c registry dispatcher request response
    = mkRun (GDTI.mkResponse (GDTI.signature response) (GDTI.rid response)
               (GDTI.rkind response) (GDTI.mask response)
               (GDTI.name request)) true).
  { intros response. unfold handleGetDataTypeInfoRequest.
    rewrite (name_nonempty_eqb _ Hname). cbn. rewrite Hnone. reflexivity. }
  split; [exact Hframe|]. rewrite Hframe. reflexivity.
Qed.

Lemma gdti_name_query_failure_echoes_name_witness :
  result (handleGetDataTypeInfoRequest Sample.decls Sample.registry
            Sample.dispatcher (GDTI.mkRequest 20 1 "foo.Nope") GDTI.zero)
  = GDTI.mkResponse 0 0 0 0 "foo.Nope".
Proof.
  apply (gdti_name_query_failure_echoes_name Sample.decls Sample.registry
           Sample.dispatcher (GDTI.mkRequest 20 1 "foo.Nope")).
  - discriminate.
  - reflexivity.
Defined.

(** ** Status flags *)

Lemma land_lor_same (a b : Z) : Z.land (Z.lor a b) a = a.
Proof.
  apply Z.bits_inj'. intros n _.
  rewrite Z.land_spec, Z.lor_spec.
  destruct (Z.testbit a n), (Z.testbit b n); reflexivity.
Qed.

Lemma flag_set_lor_l (a b f : Z) :
  flag_set a f = true -> flag_set (Z.lor a b) f = true.
Proof.
  unfold flag_set. rewrite !Z.eqb_eq. intros H.
  apply Z.bits_inj'. intros n _.
  apply (f_equal (fun z => Z.testbit z n)) in H.
  rewrite Z.land_spec in H. rewrite Z.land_spec, Z.lor_spec.
  destruct (Z.testbit a n), (Z.testbit b n), (Z.testbit f n);
    cbn in *; congruence.
Qed.

Lemma flag_set_self (f : Z) : flag_set f f = true.
Proof. unfold flag_set. rewrite Z.land_diag. apply Z.eqb_refl. Qed.

(** The status mask always carries [MASK_KNOWN] once a descriptor is found. *)
Lemma fillResponse_known c dispatcher desc response :
  flag_set (GDTI.mask (result (fillResponse c dispatcher (Some desc) response)))
           (MASK_KNOWN c) = true.
Proof.
  unfold fillResponse.
  destruct (getKind desc =? DataTypeKindService c).
  - destruct (hasServer dispatcher (getID desc)); cbn;
      [apply flag_set_lor_l|]; apply flag_set_self.
  - destruct (getKind desc =? DataTypeKindMessage c).
    + destruct (hasSubscriber dispatcher (getID desc)),
               (hasPublisher dispatcher (getID desc)); cbn;
        repeat apply flag_set_lor_l; apply flag_set_self.
    + cbn. apply flag_set_self.
Qed.

(** The descriptor fields of the response are the descriptor's. *)
Lemma fillResponse_fields c dispatcher desc response :
  let r := result (fillResponse c dispatcher (Some desc) response) in
  GDTI.signature r = getSignature desc /\ GDTI.rid r = getID desc /\
  GDTI.rkind r = getKind desc /\ GDTI.rname r = getFullName desc.
Proof.
  unfold fillResponse.
  destruct (getKind desc =? DataTypeKindService c).
  - destruct (hasServer dispatcher (getID desc)); cbn; auto.
  - destruct (getKind desc =? DataTypeKindMessage c).
    + destruct (hasSubscriber dispatcher (getID desc)),
               (hasPublisher dispatcher (getID desc)); cbn; auto.
    + cbn. auto.
Qed.

(** ** Name-based queries *)

(** C10.  With a non-empty name the id and kind of a GetDataTypeInfo query
    are not read: replacing them by any other values, an invalid kind
    included, gives the same run.  Whenever the registry knows the name, the
    response carries the signature, id, kind and full name of that
    descriptor and the known flag. *)
Theorem gdti_name_query_ignores_id_and_kind :
  forall c registry dispatcher request response,
    GDTI.name request <> EmptyString ->
    (forall id' kind',
        handleGetDataTypeInfoRequest c registry dispatcher
          (GDTI.mkRequest id' kind' (GDTI.name request)) response
        = handleGetDataTypeInfoRequest c registry dispatcher request response)
    /\
    (forall desc,
        find_by_name registry (GDTI.name request) = Some desc ->
        let r := result (handleGetDataTypeInfoRequest c registry dispatcher
                           request response) in
        GDTI.signature r = getSignature desc /\ GDTI.rid r = getID desc /\
        GDTI.rkind r = getKind desc /\ GDTI.rname r = getFullName desc /\
        flag_set (GDTI.mask r) (MASK_KNOWN c) = true).
Proof.
  intros c registry dispatcher request response Hname.
  pose proof (name_nonempty_eqb _ Hname) as Heqb.
  split.
  - intros id' kind'. unfold handleGetDataTypeInfoRequest. cbn.
    rewrite Heqb. reflexivity.
  - intros desc Hfound. unfold handleGetDataTypeInfoRequest.
    rewrite Heqb, Hfound. cbv zeta.
    pose proof (fillResponse_fields c dispatcher desc
                  (GDTI.set_name (GDTI.name request) response)) as Hf.
    cbv zeta in Hf. destruct Hf as (Hs & Hi & Hk & Hn).
    repeat split; try assumption. apply fillResponse_known.
Qed.

Lemma gdti_name_query_ignores_id_and_kind_witness :
  handleGetDataTypeInfoRequest Sample.decls Sample.registry Sample.dispatcher
    (GDTI.mkRequest 4321 77 "foo.Bar") GDTI.zero
  = handleGetDataTypeInfoRequest Sample.decls Sample.registry
      Sample.dispatcher (GDTI.mkRequest 20 1 "foo.Bar") GDTI.zero.
Proof.
  apply (gdti_name_query_ignores_id_and_kind Sample.decls Sample.registry
           Sample.dispatcher (GDTI.mkRequest 20 1 "foo.Bar") GDTI.zero).
  discriminate.
Defined.

(** The scenario of the specification: a query by the name foo.Bar, here
    carrying the invalid kind 77. *)
Example gdti_query_foo_Bar :
  handleGetDataTypeInfoRequest Sample.decls Sample.registry Sample.dispatcher
    (GDTI.mkRequest 4321 77 "foo.Bar") GDTI.zero
  = mkRun (GDTI.mkResponse 0xAABBCCDD11223344 20 1 7 "foo.Bar") true.
Proof. reflexivity. Qed.

(** ** The status mask of a found descriptor *)

Lemma handle_found c registry dispatcher request response desc :
  found_descriptor c registry request = Some desc ->
  exists response',
    handleGetDataTypeInfoRequest c registry dispatcher request response
    = fillResponse c dispatcher (Some desc) response'.
Proof.
  unfold found_descriptor, handleGetDataTypeInfoRequest.
  destruct (String.eqb (GDTI.name request) EmptyString).
  - destruct (isValidDataTypeKind c (GDTI.kind request)); [|discriminate].
    intros ->. cbn. eexists. reflexivity.
  - intros ->. eexists. reflexivity.
Qed.

Lemma flag_set_disjoint (m f : Z) :
  Z.land m f = 0 -> f <> 0 -> flag_set m f = false.
Proof.
  intros H Hf. unfold flag_set. rewrite H. apply Z.eqb_neq. congruence.
Qed.

Lemma land_lor_disjoint (a b f : Z) :
  Z.land a f = 0 -> Z.land b f = 0 -> Z.land (Z.lor a b) f = 0.
Proof. intros Ha Hb. rewrite Z.land_lor_distr_l, Ha, Hb. reflexivity. Qed.

Lemma flag_set_lor_r (a f : Z) : flag_set (Z.lor a f) f = true.
Proof.
  unfold flag_set. rewrite Z.lor_comm, land_lor_same.
  apply Z.eqb_refl.
Qed.

(** C3.  When GetDataTypeInfo finds a descriptor, the status mask has the
    known flag.  For a Service descriptor the serving flag is set exactly
    when the dispatcher has a server for its id, and the subscribed and
    publishing flags are not set.  For a Message descriptor the subscribed
    flag is set exactly when the dispatcher has a subscriber, the publishing
    flag exactly when it has a publisher, and the serving flag is not set.
    The flags are taken to have no bits in common. *)
Theorem gdti_status_mask :
  forall c registry dispatcher request response desc,
    declarations_ok c = true ->
    found_descriptor c registry request = Some desc ->
    let m := GDTI.mask (result (handleGetDataTypeInfoRequest c registry
                                  dispatcher request response)) in
    flag_set m (MASK_KNOWN c) = true /\
    (getKind desc = DataTypeKindService c ->
       flag_set m (MASK_SERVING c) = hasServer dispatcher (getID desc) /\
       flag_set m (MASK_SUBSCRIBED c) = false /\
       flag_set m (MASK_PUBLISHING c) = false) /\
    (getKind desc = DataTypeKindMessage c ->
       flag_set m (MASK_SUBSCRIBED c) = hasSubscriber dispatcher (getID desc) /\
       flag_set m (MASK_PUBLISHING c) = hasPublisher dispatcher (getID desc) /\
       flag_set m (MASK_SERVING c) = false).
Proof.
  intros c registry dispatcher request response desc Hok Hfound.
  destruct (handle_found c registry dispatcher request response desc Hfound)
    as [response' ->].
  unfold declarations_ok in Hok.
  repeat (apply andb_prop in Hok; destruct Hok as [Hok ?]).
  repeat match goal with
         | H : negb _ = true |- _ =>
             apply negb_true_iff in H; apply Z.eqb_neq in H
         | H : (_ =? _) = true |- _ => apply Z.eqb_eq in H
         end.
  cbv zeta. split; [apply fillResponse_known|].
  assert (Hsym : forall a b, Z.land a b = 0 -> Z.land b a = 0)
    by (intros a b Hab; rewrite Z.land_comm; exact Hab).
  unfold fillResponse. split; intros Hkind; rewrite Hkind.
  - rewrite Z.eqb_refl.
    destruct (hasServer dispatcher (getID desc)); cbn;
      repeat split;
      auto using flag_set_lor_r, flag_set_disjoint, land_lor_disjoint.
  - replace (DataTypeKindMessage c =? DataTypeKindService c) with false
      by (symmetry; apply Z.eqb_neq; congruence).
    rewrite Z.eqb_refl.
    destruct (hasSubscriber dispatcher (getID desc)),
             (hasPublisher dispatcher (getID desc)); cbn;
      repeat split;
      auto using flag_set_lor_r, flag_set_lor_l, flag_set_disjoint,
                 land_lor_disjoint.
Qed.

Lemma gdti_status_mask_witness :
  let m := GDTI.mask (result (handleGetDataTypeInfoRequest Sample.decls
             Sample.registry Sample.dispatcher
             (GDTI.mkRequest 20 1 EmptyString) GDTI.zero)) in
  flag_set m 1 = true /\
  (1 = 0 -> flag_set m 8 = false /\ flag_set m 2 = false /\
            flag_set m 4 = false) /\
  (1 = 1 -> flag_set m 2 = true /\ flag_set m 4 = true /\
            flag_set m 8 = false).
Proof.
  apply (gdti_status_mask Sample.decls Sample.registry Sample.dispatcher
           (GDTI.mkRequest 20 1 EmptyString) GDTI.zero Sample.foo_Bar);
    reflexivity.
Defined.

(** The two mask scenarios of the specification: a Service descriptor with
    a server, a Message descriptor with a subscriber and a publisher. *)
Example gdti_service_with_server :
  result (handleGetDataTypeInfoRequest Sample.decls Sample.registry
            Sample.dispatcher (GDTI.mkRequest 5 0 EmptyString) GDTI.zero)
  = GDTI.mkResponse 0x0123456789ABCDEF 5 0 (1 + 8) "foo.Get".
Proof. reflexivity. Qed.

Example gdti_message_with_both :
  result (handleGetDataTypeInfoRequest Sample.decls Sample.registry
            Sample.dispatcher (GDTI.mkRequest 20 1 EmptyString) GDTI.zero)
  = GDTI.mkResponse 0xAABBCCDD11223344 20 1 (1 + 2 + 4) "foo.Bar".
Proof. reflexivity. Qed.

(** ** The assertion of the success path *)

Lemma fillResponse_asserts c dispatcher desc response :
  asserts_hold (fillResponse c dispatcher (Some desc) response)
  = isValidDataTypeKind c (getKind desc).
Proof.
  unfold fillResponse, isValidDataTypeKind.
  destruct (getKind desc =? DataTypeKindService c);
    destruct (getKind desc =? DataTypeKindMessage c); reflexivity.
Qed.

(** A registry built from a list of descriptors of valid kinds hands out
    valid kinds only. *)
Lemma instance_kinds_valid c mix e descs :
  forallb (fun d => isValidDataTypeKind c (getKind d)) descs = true ->
  registry_kinds_valid c (Registry.instance mix e descs).
Proof.
  intros Hall. rewrite forallb_forall in Hall.
  split; cbn; unfold Registry.find, Registry.find_name.
  - intros kind id desc Hfind. apply find_some in Hfind. apply Hall, Hfind.
  - intros name desc Hfind. apply find_some in Hfind. apply Hall, Hfind.
Qed.

(** C9.  If every descriptor of the registry has kind Message or Service,
    no run of GetDataTypeInfo executes the assertion of the success path:
    all assertions hold, for every request and every response handed
    over. *)
Theorem gdti_assertion_unreachable :
  forall c registry dispatcher request response,
    registry_kinds_valid c registry ->
    asserts_hold (handleGetDataTypeInfoRequest c registry dispatcher request
                    response) = true.
Proof.
  intros c registry dispatcher request response [Hid Hname].
  unfold handleGetDataTypeInfoRequest.
  destruct (String.eqb (GDTI.name request) EmptyString).
  - destruct (isValidDataTypeKind c (GDTI.kind request)); cbn; [|reflexivity].
    destruct (find_by_id registry (GDTI.kind request) (GDTI.id request))
      as [desc|] eqn:Hfind; [|reflexivity].
    rewrite fillResponse_asserts. eapply Hid, Hfind.
  - cbv zeta.
    destruct (find_by_name registry (GDTI.name request))
      as [desc|] eqn:Hfind; [|reflexivity].
    rewrite fillResponse_asserts. eapply Hname, Hfind.
Qed.

Lemma gdti_assertion_unreachable_witness :
  asserts_hold (handleGetDataTypeInfoRequest Sample.decls Sample.registry
                  Sample.dispatcher (GDTI.mkRequest 0 0 "foo.Baz") GDTI.zero)
  = true.
Proof.
  apply (gdti_assertion_unreachable Sample.decls Sample.registry
           Sample.dispatcher (GDTI.mkRequest 0 0 "foo.Baz") GDTI.zero).
  apply instance_kinds_valid. reflexivity.
Defined.

(** The precondition matters: a registry holding a descriptor of another
    kind drives a name-based query into the assertion. *)
Example gdti_assertion_reached :
  handleGetDataTypeInfoRequest Sample.decls Sample.odd_registry
    Sample.dispatcher (GDTI.mkRequest 0 0 "odd.Type") GDTI.zero
  = mkRun (GDTI.mkResponse 0x55 3 9 1 "odd.Type") false.
Proof. reflexivity. Qed.

(** ** Repeated queries *)

(** C8.  Both operations are functions of the request, the registry and the
    dispatcher: two invocations on a pre-zeroed response give the same
    response.  Moreover an invocation on the response left by a first
    invocation changes nothing. *)
Theorem handlers_deterministic :
  forall c registry dispatcher,
    (forall request,
        let first := handleComputeAggregateTypeSignatureRequest c registry
                       request CATS.zero in
        let second := handleComputeAggregateTypeSignatureRequest c registry
                        request CATS.zero in
        first = second /\
        handleComputeAggregateTypeSignatureRequest c registry request first
        = first) /\
    (forall request,
        let first := handleGetDataTypeInfoRequest c registry dispatcher
                       request GDTI.zero in
        let second := handleGetDataTypeInfoRequest c registry dispatcher
                        request GDTI.zero in
        first = second /\
        handleGetDataTypeInfoRequest c registry dispatcher request
          (result first) = first).
Proof.
  intros c registry dispatcher. split; intros request; cbv zeta;
    (split; [reflexivity|]).
  - unfold handleComputeAggregateTypeSignatureRequest.
    destruct (isValidDataTypeKind c (CATS.kind request)); reflexivity.
  - unfold handleGetDataTypeInfoRequest.
    destruct (String.eqb (GDTI.name request) EmptyString).
    + destruct (isValidDataTypeKind c (GDTI.kind request)); cbn;
        [|reflexivity].
      destruct (find_by_id registry (GDTI.kind request) (GDTI.id request));
        reflexivity.
    + cbv zeta.
      destruct (find_by_name registry (GDTI.name request)); reflexivity.
Qed.

(** ** start() *)

(** C7.  [start()] registers both handlers or none.  If the first
    registration fails, or the first succeeds and the second fails,
    [start()] returns that negative result code with both servers stopped;
    otherwise it returns the non-negative code of the second registration
    with both handlers registered.  In no case is exactly one handler left
    registered, and the two assertions of [start()] hold. *)
Theorem start_registers_both_or_none :
  forall cats_start gdti_start p,
    registers_on_success cats_start ->
    registers_on_success gdti_start ->
    let r1 := fst (cats_start (cats_srv_ p)) in
    let r2 := fst (gdti_start (gdti_srv_ p)) in
    let run := start cats_start gdti_start p in
    let res := fst (result run) in
    let p' := snd (result run) in
    asserts_hold run = true /\
    registered (cats_srv_ p') = registered (gdti_srv_ p') /\
    (r1 < 0 ->
       res = r1 /\ registered (cats_srv_ p') = false /\
       registered (gdti_srv_ p') = false) /\
    (0 <= r1 -> r2 < 0 ->
       res = r2 /\ registered (cats_srv_ p') = false /\
       registered (gdti_srv_ p') = false) /\
    (0 <= r1 -> 0 <= r2 ->
       res = r2 /\ registered (cats_srv_ p') = true /\
       registered (gdti_srv_ p') = true) /\
    (res < 0 <-> r1 < 0 \/ r2 < 0).
Proof.
  intros cats_start gdti_start p Hcats Hgdti.
  specialize (Hcats (cats_srv_ p)). specialize (Hgdti (gdti_srv_ p)).
  unfold start, start_fail.
  destruct (cats_start (cats_srv_ p)) as [r1 s1].
  cbn [gdti_srv_ cats_srv_].
  destruct (gdti_start (gdti_srv_ p)) as [r2 s2].
  cbn [fst snd] in *. cbv zeta.
  destruct (r1 <? 0) eqn:H1; [apply Z.ltb_lt in H1 | apply Z.ltb_ge in H1].
  - cbn. repeat split; intros; try reflexivity; try lia.
  - destruct (r2 <? 0) eqn:H2;
      [apply Z.ltb_lt in H2 | apply Z.ltb_ge in H2]; cbn.
    + repeat split; intros; try reflexivity; try lia.
    + rewrite (proj2 (Z.leb_le 0 r2) H2), (Hcats H1), (Hgdti H2).
      repeat split; intros; try reflexivity; try lia.
Qed.

(** The second registration fails with code -3 and leaves its server in a
    registered state; [start()] returns -3 with both servers stopped. *)
Lemma start_registers_both_or_none_witness :
  let run := start (fun _ => (0, mkServer true))
                   (fun _ => (-3, mkServer true))
                   (mkProvider (mkServer false) (mkServer false)) in
  asserts_hold run = true /\
  registered (cats_srv_ (snd (result run)))
  = registered (gdti_srv_ (snd (result run))) /\
  (0 < 0 -> fst (result run) = 0 /\
            registered (cats_srv_ (snd (result run))) = false /\
            registered (gdti_srv_ (snd (result run))) = false) /\
  (0 <= 0 -> -3 < 0 ->
     fst (result run) = -3 /\
     registered (cats_srv_ (snd (result run))) = false /\
     registered (gdti_srv_ (snd (result run))) = false) /\
  (0 <= 0 -> 0 <= -3 ->
     fst (result run) = -3 /\
     registered (cats_srv_ (snd (result run))) = true /\
     registered (gdti_srv_ (snd (result run))) = true) /\
  (fst (result run) < 0 <-> 0 < 0 \/ -3 < 0).
Proof.
  apply (start_registers_both_or_none
           (fun _ => (0, mkServer true)) (fun _ => (-3, mkServer true))
           (mkProvider (mkServer false) (mkServer false))).
  - intros s _. reflexivity.
  - intros s Hs. cbn in Hs. lia.
Defined.

Example start_success :
  start (fun _ => (0, mkServer true)) (fun _ => (2, mkServer true))
        (mkProvider (mkServer false) (mkServer false))
  = mkRun (2, mkProvider (mkServer true) (mkServer true)) true.
Proof. reflexivity. Qed.

Example start_first_fails :
  start (fun _ => (-1, mkServer true)) (fun _ => (2, mkServer true))
        (mkProvider (mkServer false) (mkServer false))
  = mkRun (-1, mkProvider (mkServer false) (mkServer false)) true.
Proof. reflexivity. Qed.

(** ** The normalized mask *)

Lemma resize_length (n : nat) (l : list bool) : List.length (resize n l) = n.
Proof.
  unfold resize. rewrite length_app, length_firstn, repeat_length. lia.
Qed.

Lemma resize_nth (n : nat) (l : list bool) (i : nat) :
  nth i (resize n l) false
  = if (i <? Nat.min (List.length l) n)%nat then nth i l false else false.
Proof.
  unfold resize.
  destruct (Nat.lt_ge_cases i (List.length (firstn n l))) as [Hlt | Hge].
  - rewrite app_nth1 by exact Hlt. rewrite length_firstn in Hlt.
    rewrite nth_firstn, Nat.min_comm.
    rewrite (proj2 (Nat.ltb_lt _ _) Hlt).
    rewrite (proj2 (Nat.ltb_lt i n)) by lia. reflexivity.
  - rewrite app_nth2 by exact Hge. rewrite nth_repeat.
    rewrite length_firstn in Hge.
    rewrite Nat.min_comm, (proj2 (Nat.ltb_ge _ _) Hge). reflexivity.
Qed.

(** The mask of the response is the request's mask resized. *)
Lemma handler_resizes_mask c registry request response :
  isValidDataTypeKind c (CATS.kind request) = true ->
  CATS.mutually_known_ids
    (handleComputeAggregateTypeSignatureRequest c registry request response)
  = resize (mask_length c (CATS.kind request)) (CATS.known_ids request).
Proof.
  intros Hvalid. unfold handleComputeAggregateTypeSignatureRequest.
  rewrite Hvalid. reflexivity.
Qed.

(** C2 as stated fails: with a largest id of 65535 the size passed to
    [resize] is [static_cast<uint16_t>(65536)], which is 0, so the returned
    mask is empty instead of 65536 bits long. *)
Lemma cats_mask_length_not_max_plus_one :
  ~ (forall c registry request,
       isValidDataTypeKind c (CATS.kind request) = true ->
       Z.of_nat (List.length (CATS.mutually_known_ids
                   (handleComputeAggregateTypeSignatureRequest c registry
                      request CATS.zero)))
       = getMaxValueForDataTypeKind c (CATS.kind request) + 1).
Proof.
  intros H.
  specialize (H Sample.wide_decls Sample.registry
                (CATS.mkRequest 1 [true; false; true]) eq_refl).
  vm_compute in H. discriminate H.
Qed.

Example cats_mask_empty_at_65535 :
  handleComputeAggregateTypeSignatureRequest Sample.wide_decls Sample.registry
    (CATS.mkRequest 1 [true; false; true]) CATS.zero
  = CATS.mkResponse 0 [].
Proof. vm_compute. reflexivity. Qed.

(** C2, amended.  For a valid kind k and a mask m of any length, the mask of
    the response has length (maxValue(k) + 1) mod 2^16, which is
    maxValue(k) + 1 whenever 0 <= maxValue(k) < 65535; its first
    min(len(m), that length) bits are those of m and all its other bits are
    zero. *)
Theorem cats_mask_normalized :
  forall c registry request response,
    isValidDataTypeKind c (CATS.kind request) = true ->
    let k := CATS.kind request in
    let m := CATS.known_ids request in
    let r := CATS.mutually_known_ids
               (handleComputeAggregateTypeSignatureRequest c registry request
                  response) in
    Z.of_nat (List.length r)
    = (getMaxValueForDataTypeKind c k + 1) mod 2 ^ 16 /\
    (0 <= getMaxValueForDataTypeKind c k < 65535 ->
     Z.of_nat (List.length r) = getMaxValueForDataTypeKind c k + 1) /\
    (forall i,
        nth i r false
        = if (i <? Nat.min (List.length m) (List.length r))%nat
          then nth i m false else false).
Proof.
  intros c registry request response Hvalid. cbv zeta.
  rewrite (handler_resizes_mask _ _ _ _ Hvalid), resize_length.
  assert (Hlen : Z.of_nat (mask_length c (CATS.kind request))
                 = (getMaxValueForDataTypeKind c (CATS.kind request) + 1)
                     mod 2 ^ 16).
  { unfold mask_length, to_uint16. apply Z2Nat.id.
    apply Z.mod_pos_bound. lia. }
  split; [exact Hlen|]. split.
  - intros Hrange. rewrite Hlen. apply Z.mod_small. lia.
  - intros i. apply resize_nth.
Qed.

Lemma cats_mask_normalized_witness :
  isValidDataTypeKind Sample.decls 1 = true /\
  Z.of_nat (List.length (CATS.mutually_known_ids
              (handleComputeAggregateTypeSignatureRequest Sample.decls
                 Sample.registry (CATS.mkRequest 1 [true; false; true])
                 CATS.zero)))
  = (2047 + 1) mod 2 ^ 16.
Proof.
  split; [reflexivity|].
  exact (proj1 (cats_mask_normalized Sample.decls Sample.registry
                  (CATS.mkRequest 1 [true; false; true]) CATS.zero
                  eq_refl)).
Defined.

(** ** The aggregate signature *)


Lemma find_key (descs : list DataTypeDescriptor) (kind id : Z)
    (d : DataTypeDescriptor) :
  Registry.find descs kind id = Some d ->
  In d descs /\ getKind d = kind /\ getID d = id.
Proof.
  unfold Registry.find. intros H. apply find_some in H.
  destruct H as [Hin Hkey]. apply andb_prop in Hkey.
  destruct Hkey as [Hk Hi]. apply Z.eqb_eq in Hk, Hi. auto.
Qed.








Section Aggregation.

Variable mix : Z -> Z -> Z.
Variable empty_signature : Z.
Hypothesis mix_assoc : forall a b c, mix (mix a b) c = mix a (mix b c).
Hypothesis mix_comm : forall a b, mix a b = mix b a.



End Aggregation.



Example cats_aggregate_at_65535 :
  CATS.aggregate_signature
    (handleComputeAggregateTypeSignatureRequest Sample.wide_decls
       Sample.registry (CATS.mkRequest 1 [true; false; true]) CATS.zero) = 0
  /\ Registry.combine Z.lxor 0
       (map getSignature (descriptors_of_kind Sample.descs 1))
     = 13522883610688976640.
Proof. split; vm_compute; reflexivity. Qed.



Example cats_aggregate_sample :
  CATS.aggregate_signature
    (handleComputeAggregateTypeSignatureRequest Sample.decls Sample.registry
       (CATS.mkRequest 1 [false; false; false]) CATS.zero)
  = Z.lxor 0x1111222233334444 0xAABBCCDD11223344.
Proof. vm_compute. reflexivity. Qed.

(** ** Further properties of GetDataTypeInfo *)

(** The handler is the lookup followed by the filling of the response. *)
Lemma handle_factors c registry dispatcher request response :
  handleGetDataTypeInfoRequest c registry dispatcher request response
  = fillResponse c dispatcher (found_descriptor c registry request)
      (prefill request response).
Proof.
  unfold handleGetDataTypeInfoRequest, found_descriptor, prefill.
  destruct (String.eqb (GDTI.name request) EmptyString); [|reflexivity].
  destruct (isValidDataTypeKind c (GDTI.kind request)); reflexivity.
Qed.

Lemma fillResponse_overwrites c dispatcher desc response response' :
  fillResponse c dispatcher (Some desc) response
  = fillResponse c dispatcher (Some desc) response'.
Proof. reflexivity. Qed.

(** X1.  Once a descriptor is found, nothing of the response handed over
    survives: the run is the same for every initial response, so the
    pre-set id, kind or name never leak into a successful answer. *)
Theorem gdti_success_overwrites_response :
  forall c registry dispatcher request desc response response',
    found_descriptor c registry request = Some desc ->
    handleGetDataTypeInfoRequest c registry dispatcher request response
    = handleGetDataTypeInfoRequest c registry dispatcher request response'.
Proof.
  intros c registry dispatcher request desc response response' Hfound.
  rewrite !handle_factors, Hfound. apply fillResponse_overwrites.
Qed.

Lemma gdti_success_overwrites_response_witness :
  handleGetDataTypeInfoRequest Sample.decls Sample.registry Sample.dispatcher
    (GDTI.mkRequest 5 0 EmptyString) GDTI.zero
  = handleGetDataTypeInfoRequest Sample.decls Sample.registry
      Sample.dispatcher (GDTI.mkRequest 5 0 EmptyString)
      (GDTI.mkResponse 99 98 97 255 "stale").
Proof.
  apply (gdti_success_overwrites_response Sample.decls Sample.registry
           Sample.dispatcher (GDTI.mkRequest 5 0 EmptyString) Sample.foo_Get).
  reflexivity.
Defined.

(** X2.  On a pre-zeroed response the known flag tells success from
    failure: it is set exactly when a descriptor was found, provided
    MASK_KNOWN is not zero. *)
Theorem gdti_known_flag_iff_found :
  forall c registry dispatcher request,
    MASK_KNOWN c <> 0 ->
    flag_set (GDTI.mask (result (handleGetDataTypeInfoRequest c registry
                                   dispatcher request GDTI.zero)))
             (MASK_KNOWN c) = true
    <-> exists desc, found_descriptor c registry request = Some desc.
Proof.
  intros c registry dispatcher request Hknown.
  rewrite handle_factors.
  destruct (found_descriptor c registry request) as [desc|].
  - split; [intros _; exists desc; reflexivity|].
    intros _. apply fillResponse_known.
  - split; [|intros [desc Hdesc]; discriminate Hdesc].
    unfold fillResponse. cbn [result].
    replace (GDTI.mask (prefill request GDTI.zero)) with 0
      by (unfold prefill;
          destruct (String.eqb (GDTI.name request) EmptyString);
          reflexivity).
    unfold flag_set. rewrite Z.land_0_l.
    intros H. apply Z.eqb_eq in H. congruence.
Qed.

Lemma gdti_known_flag_iff_found_witness :
  flag_set (GDTI.mask (result (handleGetDataTypeInfoRequest Sample.decls
              Sample.registry Sample.dispatcher
              (GDTI.mkRequest 9999 0 EmptyString) GDTI.zero))) 1 = true
  <-> exists desc,
        found_descriptor Sample.decls Sample.registry
          (GDTI.mkRequest 9999 0 EmptyString) = Some desc.
Proof.
  apply (gdti_known_flag_iff_found Sample.decls Sample.registry
           Sample.dispatcher (GDTI.mkRequest 9999 0 EmptyString)).
  discriminate.
Defined.

(** X3.  The assertion of the success path fails exactly when the lookup
    produced a descriptor whose kind is neither Message nor Service; a
    failed lookup and an invalid kind of the request never trigger it. *)
Theorem gdti_assertion_fails_iff_invalid_descriptor :
  forall c registry dispatcher request response,
    asserts_hold (handleGetDataTypeInfoRequest c registry dispatcher request
                    response) = false
    <-> exists desc,
          found_descriptor c registry request = Some desc /\
          isValidDataTypeKind c (getKind desc) = false.
Proof.
  intros c registry dispatcher request response.
  rewrite handle_factors.
  destruct (found_descriptor c registry request) as [desc|].
  - rewrite fillResponse_asserts. split.
    + intros H. exists desc. split; [reflexivity | exact H].
    + intros [desc' [Heq H]]. injection Heq as <-. exact H.
  - cbn. split; [discriminate|]. intros [desc [Heq _]]. discriminate Heq.
Qed.

(** X4.  If the registry answers a (kind, id) lookup only with descriptors
    of that kind, no id-based query can fail the assertion, whatever else
    the registry holds: the kind check of the request guards it. *)
Theorem gdti_id_query_never_fails_assertion :
  forall c registry dispatcher request response,
    (forall kind id desc,
        find_by_id registry kind id = Some desc -> getKind desc = kind) ->
    GDTI.name request = EmptyString ->
    asserts_hold (handleGetDataTypeInfoRequest c registry dispatcher request
                    response) = true.
Proof.
  intros c registry dispatcher request response Hkind Hname.
  rewrite handle_factors. unfold found_descriptor.
  rewrite (name_empty_eqb _ Hname).
  destruct (isValidDataTypeKind c (GDTI.kind request)) eqn:Hvalid;
    [|reflexivity].
  destruct (find_by_id registry (GDTI.kind request) (GDTI.id request))
    as [desc|] eqn:Hfind; [|reflexivity].
  rewrite fillResponse_asserts, (Hkind _ _ _ Hfind). exact Hvalid.
Qed.

Lemma gdti_id_query_never_fails_assertion_witness :
  asserts_hold (handleGetDataTypeInfoRequest Sample.decls Sample.odd_registry
                  Sample.dispatcher (GDTI.mkRequest 3 9 EmptyString)
                  GDTI.zero) = true.
Proof.
  apply (gdti_id_query_never_fails_assertion Sample.decls Sample.odd_registry
           Sample.dispatcher (GDTI.mkRequest 3 9 EmptyString) GDTI.zero).
  - intros kind id desc Hfind. apply find_key in Hfind. apply Hfind.
  - reflexivity.
Defined.

(** X5.  A query by (kind, id) and a query by name that reach the same
    descriptor give the same run, whatever id and kind the name-based
    request carries and whatever responses the two are handed. *)
Theorem gdti_id_and_name_queries_agree :
  forall c registry dispatcher id kind name id' kind' desc response response',
    isValidDataTypeKind c kind = true ->
    find_by_id registry kind id = Some desc ->
    name <> EmptyString ->
    find_by_name registry name = Some desc ->
    handleGetDataTypeInfoRequest c registry dispatcher
      (GDTI.mkRequest id kind EmptyString) response
    = handleGetDataTypeInfoRequest c registry dispatcher
        (GDTI.mkRequest id' kind' name) response'.
Proof.
  intros c registry dispatcher id kind name id' kind' desc response response'
         Hvalid Hid Hname Hfind.
  rewrite !handle_factors. unfold found_descriptor.
  cbn [GDTI.name GDTI.kind GDTI.id].
  rewrite (name_nonempty_eqb _ Hname).
  change (String.eqb EmptyString EmptyString) with true. cbv iota.
  rewrite Hvalid, Hid, Hfind. apply fillResponse_overwrites.
Qed.

Lemma gdti_id_and_name_queries_agree_witness :
  handleGetDataTypeInfoRequest Sample.decls Sample.registry Sample.dispatcher
    (GDTI.mkRequest 7 1 EmptyString) GDTI.zero
  = handleGetDataTypeInfoRequest Sample.decls Sample.registry
      Sample.dispatcher (GDTI.mkRequest 0 0 "foo.Baz") GDTI.zero.
Proof.
  apply (gdti_id_and_name_queries_agree Sample.decls Sample.registry
           Sample.dispatcher 7 1 "foo.Baz" 0 0 Sample.foo_Baz GDTI.zero
           GDTI.zero);
    [reflexivity | reflexivity | discriminate | reflexivity].
Defined.

Lemma fillResponse_dispatchers c d1 d2 desc response :
  dispatchers_agree_at d1 d2 (getID desc) ->
  fillResponse c d1 (Some desc) response
  = fillResponse c d2 (Some desc) response.
Proof.
  intros (Hserver & Hsub & Hpub). unfold fillResponse.
  rewrite Hserver, Hsub, Hpub. reflexivity.
Qed.

(** X6.  The dispatcher is asked about the id of the found descriptor and
    about nothing else: two dispatchers that agree on that id give the same
    run, and when no descriptor is found the dispatcher does not matter at
    all. *)
Theorem gdti_reads_dispatcher_at_found_id_only :
  forall c registry d1 d2 request response,
    (forall desc,
        found_descriptor c registry request = Some desc ->
        dispatchers_agree_at d1 d2 (getID desc)) ->
    handleGetDataTypeInfoRequest c registry d1 request response
    = handleGetDataTypeInfoRequest c registry d2 request response.
Proof.
  intros c registry d1 d2 request response Hagree.
  rewrite !handle_factors.
  destruct (found_descriptor c registry request) as [desc|];
    [|reflexivity].
  apply fillResponse_dispatchers, Hagree. reflexivity.
Qed.

Lemma gdti_reads_dispatcher_at_found_id_only_witness :
  handleGetDataTypeInfoRequest Sample.decls Sample.registry Sample.dispatcher
    (GDTI.mkRequest 0 0 "foo.Bar") GDTI.zero
  = handleGetDataTypeInfoRequest Sample.decls Sample.registry
      Sample.other_dispatcher (GDTI.mkRequest 0 0 "foo.Bar") GDTI.zero.
Proof.
  apply (gdti_reads_dispatcher_at_found_id_only Sample.decls Sample.registry
           Sample.dispatcher Sample.other_dispatcher
           (GDTI.mkRequest 0 0 "foo.Bar") GDTI.zero).
  intros desc Hfound. injection Hfound as <-.
  repeat split; reflexivity.
Defined.

Lemma land_within (m a : Z) :
  (forall n, Z.testbit m n = true -> Z.testbit a n = true) ->
  Z.land m a = m.
Proof.
  intros H. apply Z.bits_inj'. intros n _. rewrite Z.land_spec.
  specialize (H n). destruct (Z.testbit m n); [|reflexivity].
  rewrite H; reflexivity.
Qed.

(** X7.  On a pre-zeroed response the status mask never carries a bit
    outside the four flags: it is zero after a failure and a union of flags
    after a success. *)
Theorem gdti_mask_within_flags :
  forall c registry dispatcher request,
    let m := GDTI.mask (result (handleGetDataTypeInfoRequest c registry
                                  dispatcher request GDTI.zero)) in
    Z.land m (all_flags c) = m.
Proof.
  intros c registry dispatcher request. cbv zeta.
  rewrite handle_factors.
  destruct (found_descriptor c registry request) as [desc|].
  - apply land_within. intros n. unfold fillResponse, all_flags.
    destruct (getKind desc =? DataTypeKindService c);
      [|destruct (getKind desc =? DataTypeKindMessage c)];
      try destruct (hasServer dispatcher (getID desc));
      try destruct (hasSubscriber dispatcher (getID desc));
      try destruct (hasPublisher dispatcher (getID desc));
      cbn [result GDTI.mask GDTI.set_mask GDTI.set_name GDTI.set_kind
           GDTI.set_id GDTI.set_signature];
      rewrite ?Z.lor_spec;
      destruct (Z.testbit (MASK_KNOWN c) n),
               (Z.testbit (MASK_SUBSCRIBED c) n),
               (Z.testbit (MASK_PUBLISHING c) n),
               (Z.testbit (MASK_SERVING c) n);
      cbn; congruence.
  - unfold fillResponse, prefill. cbn [result].
    destruct (String.eqb (GDTI.name request) EmptyString); reflexivity.
Qed.

(** X8.  An id-based query with an invalid kind returns before the registry
    or the dispatcher is consulted: the run is the same for every registry
    and every dispatcher. *)
Theorem gdti_invalid_kind_consults_nothing :
  forall c registry registry' dispatcher dispatcher' request response,
    GDTI.name request = EmptyString ->
    isValidDataTypeKind c (GDTI.kind request) = false ->
    handleGetDataTypeInfoRequest c registry dispatcher request response
    = handleGetDataTypeInfoRequest c registry' dispatcher' request response.
Proof.
  intros c registry registry' dispatcher dispatcher' request response
         Hname Hinvalid.
  unfold handleGetDataTypeInfoRequest.
  rewrite (name_empty_eqb _ Hname), Hinvalid. reflexivity.
Qed.

Lemma gdti_invalid_kind_consults_nothing_witness :
  handleGetDataTypeInfoRequest Sample.decls Sample.odd_registry
    Sample.dispatcher (GDTI.mkRequest 3 9 EmptyString) GDTI.zero
  = handleGetDataTypeInfoRequest Sample.decls Sample.empty_registry
      Sample.other_dispatcher (GDTI.mkRequest 3 9 EmptyString) GDTI.zero.
Proof.
  apply (gdti_invalid_kind_consults_nothing Sample.decls Sample.odd_registry
           Sample.empty_registry Sample.dispatcher Sample.other_dispatcher
           (GDTI.mkRequest 3 9 EmptyString) GDTI.zero);
    reflexivity.
Defined.

(** ** Further properties of ComputeAggregateTypeSignature *)

Lemma resize_same_length (l : list bool) : resize (List.length l) l = l.
Proof.
  unfold resize. rewrite firstn_all, Nat.sub_diag. apply app_nil_r.
Qed.

(** X9.  With a valid kind both fields of the response are written: the
    response left behind is the same for every response handed over. *)
Theorem cats_valid_kind_overwrites_response :
  forall c registry request response response',
    isValidDataTypeKind c (CATS.kind request) = true ->
    handleComputeAggregateTypeSignatureRequest c registry request response
    = handleComputeAggregateTypeSignatureRequest c registry request response'.
Proof.
  intros c registry request response response' Hvalid.
  unfold handleComputeAggregateTypeSignatureRequest.
  rewrite Hvalid. reflexivity.
Qed.

Lemma cats_valid_kind_overwrites_response_witness :
  handleComputeAggregateTypeSignatureRequest Sample.decls Sample.registry
    (CATS.mkRequest 0 [true]) CATS.zero
  = handleComputeAggregateTypeSignatureRequest Sample.decls Sample.registry
      (CATS.mkRequest 0 [true]) (CATS.mkResponse 77 [false; true]).
Proof.
  apply (cats_valid_kind_overwrites_response Sample.decls Sample.registry
           (CATS.mkRequest 0 [true])).
  reflexivity.
Defined.

(** X10.  Normalizing is idempotent.  A mask that already has the length of
    the id space of the kind comes back unchanged, and sending the returned
    mask again returns it once more. *)
Theorem cats_normalized_mask_is_fixed :
  forall c registry request response,
    isValidDataTypeKind c (CATS.kind request) = true ->
    let returned := CATS.mutually_known_ids
                      (handleComputeAggregateTypeSignatureRequest c registry
                         request response) in
    (List.length (CATS.known_ids request) = mask_length c (CATS.kind request)
     -> returned = CATS.known_ids request) /\
    CATS.mutually_known_ids
      (handleComputeAggregateTypeSignatureRequest c registry
         (CATS.mkRequest (CATS.kind request) returned) response)
    = returned.
Proof.
  intros c registry request response Hvalid. cbv zeta.
  rewrite (handler_resizes_mask _ _ _ _ Hvalid).
  split.
  - intros <-. apply resize_same_length.
  - rewrite handler_resizes_mask by exact Hvalid.
    cbn [CATS.kind CATS.known_ids].
    rewrite <- (resize_length (mask_length c (CATS.kind request))
                  (CATS.known_ids request)) at 1.
    apply resize_same_length.
Qed.

Lemma cats_normalized_mask_is_fixed_witness :
  let returned := CATS.mutually_known_ids
                    (handleComputeAggregateTypeSignatureRequest Sample.decls
                       Sample.registry (CATS.mkRequest 0 [true; true])
                       CATS.zero) in
  CATS.mutually_known_ids
    (handleComputeAggregateTypeSignatureRequest Sample.decls Sample.registry
       (CATS.mkRequest 0 returned) CATS.zero)
  = returned.
Proof.
  exact (proj2 (cats_normalized_mask_is_fixed Sample.decls Sample.registry
                  (CATS.mkRequest 0 [true; true]) CATS.zero eq_refl)).
Defined.

(** X11.  Because the size is cast to 16 bits, the mask of the response
    never has more than 65535 positions, whatever the largest id of the
    kind and however long the mask of the request. *)
Theorem cats_mask_length_below_2_16 :
  forall c registry request response,
    isValidDataTypeKind c (CATS.kind request) = true ->
    Z.of_nat (List.length (CATS.mutually_known_ids
                (handleComputeAggregateTypeSignatureRequest c registry
                   request response))) <= 65535.
Proof.
  intros c registry request response Hvalid.
  rewrite (handler_resizes_mask _ _ _ _ Hvalid), resize_length.
  unfold mask_length, to_uint16.
  pose proof (Z.mod_pos_bound
                (getMaxValueForDataTypeKind c (CATS.kind request) + 1)
                (2 ^ 16) eq_refl) as Hbound.
  change (2 ^ 16) with 65536 in *.
  rewrite Z2Nat.id by lia. lia.
Qed.

Lemma cats_mask_length_below_2_16_witness :
  Z.of_nat (List.length (CATS.mutually_known_ids
              (handleComputeAggregateTypeSignatureRequest Sample.wide_decls
                 Sample.registry (CATS.mkRequest 1 [true]) CATS.zero)))
  <= 65535.
Proof.
  apply (cats_mask_length_below_2_16 Sample.wide_decls Sample.registry
           (CATS.mkRequest 1 [true]) CATS.zero).
  reflexivity.
Defined.

Lemma resize_drops_excess (l extra : list bool) :
  resize (List.length l) (l ++ extra) = l.
Proof.
  unfold resize.
  rewrite firstn_app, firstn_all, Nat.sub_diag, firstn_O, app_nil_r.
  rewrite length_app.
  replace (List.length l - (List.length l + List.length extra))%nat
    with 0%nat by lia.
  apply app_nil_r.
Qed.

(** X15.  Positions beyond the id space of the kind are dropped before the
    registry sees the mask: appending anything to a mask of normalized
    length changes neither field of the response, for any registry. *)
Theorem cats_ignores_bits_beyond_id_space :
  forall c registry kind mask extra response,
    isValidDataTypeKind c kind = true ->
    List.length mask = mask_length c kind ->
    handleComputeAggregateTypeSignatureRequest c registry
      (CATS.mkRequest kind (mask ++ extra)) response
    = handleComputeAggregateTypeSignatureRequest c registry
        (CATS.mkRequest kind mask) response.
Proof.
  intros c registry kind mask extra response Hvalid Hlen.
  unfold handleComputeAggregateTypeSignatureRequest.
  cbn [CATS.kind CATS.known_ids]. rewrite Hvalid.
  cbn [negb CATS.mutually_known_ids CATS.set_mutually_known_ids
       CATS.aggregate_signature CATS.set_aggregate_signature].
  rewrite <- Hlen, resize_drops_excess, resize_same_length. reflexivity.
Qed.

Lemma cats_ignores_bits_beyond_id_space_witness :
  handleComputeAggregateTypeSignatureRequest Sample.decls Sample.registry
    (CATS.mkRequest 0 (repeat true 512 ++ [true; true])) CATS.zero
  = handleComputeAggregateTypeSignatureRequest Sample.decls Sample.registry
      (CATS.mkRequest 0 (repeat true 512)) CATS.zero.
Proof.
  apply (cats_ignores_bits_beyond_id_space Sample.decls Sample.registry 0
           (repeat true 512) [true; true] CATS.zero);
    reflexivity.
Defined.

(** ** Further properties of start() *)

(** X12.  The two assertions of [start()] can never fail, whatever the two
    registrations return and whatever state they leave. *)
Theorem start_assertions_never_fail :
  forall cats_start gdti_start p,
    asserts_hold (start cats_start gdti_start p) = true.
Proof.
  intros cats_start gdti_start p. unfold start, start_fail.
  destruct (cats_start (cats_srv_ p)) as [r1 s1].
  destruct (r1 <? 0) eqn:H1; [reflexivity|].
  cbn [gdti_srv_ cats_srv_].
  destruct (gdti_start (gdti_srv_ p)) as [r2 s2].
  destruct (r2 <? 0) eqn:H2; [reflexivity|].
  cbn [asserts_hold]. apply Z.leb_le. apply Z.ltb_ge in H2. exact H2.
Qed.

(** X13.  When the first registration fails the second is not attempted:
    [start()] gives the same outcome whatever the second server's start
    would have done. *)
Theorem start_skips_second_registration :
  forall cats_start gdti_start gdti_start' p,
    fst (cats_start (cats_srv_ p)) < 0 ->
    start cats_start gdti_start p = start cats_start gdti_start' p.
Proof.
  intros cats_start gdti_start gdti_start' p Hfail. unfold start.
  destruct (cats_start (cats_srv_ p)) as [r1 s1]. cbn [fst] in Hfail.
  rewrite (proj2 (Z.ltb_lt r1 0) Hfail). reflexivity.
Qed.

Lemma start_skips_second_registration_witness :
  start (fun _ => (-1, mkServer true)) (fun _ => (0, mkServer true))
        (mkProvider (mkServer false) (mkServer true))
  = start (fun _ => (-1, mkServer true)) (fun _ => (-7, mkServer false))
          (mkProvider (mkServer false) (mkServer true)).
Proof.
  apply (start_skips_second_registration
           (fun _ => (-1, mkServer true)) (fun _ => (0, mkServer true))
           (fun _ => (-7, mkServer false))
           (mkProvider (mkServer false) (mkServer true))).
  cbn. lia.
Defined.

(** X14.  The result code of [start()] tells the state of the servers with
    no assumption on what a registration does.  A negative code means both
    servers were stopped, also a server that was registered before the
    call; a non-negative code means both registrations were attempted, the
    code is the second one's, and the servers are exactly as the two
    registrations left them. *)
Theorem start_code_tells_state :
  forall cats_start gdti_start p,
    let run := start cats_start gdti_start p in
    (fst (result run) < 0 ->
       snd (result run) = mkProvider (mkServer false) (mkServer false)) /\
    (0 <= fst (result run) ->
       0 <= fst (cats_start (cats_srv_ p)) /\
       fst (result run) = fst (gdti_start (gdti_srv_ p)) /\
       snd (result run)
       = mkProvider (snd (cats_start (cats_srv_ p)))
                    (snd (gdti_start (gdti_srv_ p)))).
Proof.
  intros cats_start gdti_start p. unfold start, start_fail. cbv zeta.
  destruct (cats_start (cats_srv_ p)) as [r1 s1].
  cbn [gdti_srv_ cats_srv_].
  destruct (gdti_start (gdti_srv_ p)) as [r2 s2].
  cbn [fst snd].
  destruct (r1 <? 0) eqn:H1; [apply Z.ltb_lt in H1 | apply Z.ltb_ge in H1].
  - cbn. split; [reflexivity | lia].
  - destruct (r2 <? 0) eqn:H2;
      [apply Z.ltb_lt in H2 | apply Z.ltb_ge in H2]; cbn.
    + split; [reflexivity | lia].
    + split; [lia | auto].
Qed.
